(** * Solace: a shallow embedding of the client pages and the recommendation pipeline

    The streaming page ([src/unnamed/part_000], [Home]) and the non-streaming
    page ([src/frontend/app/page.js], [Home]) are translated from the source.
    The backend ([backend/main.py]) is not part of the sources at hand; the
    pieces of it that some properties depend on are modelled from the design
    document and marked so. *)

From Stdlib Require Import String Ascii List ZArith Bool Lia Permutation.
Import ListNotations.
Open Scope string_scope.

(** ** JavaScript strings

    JS strings are modelled as [string]; characters are the code units
    0..255.  [String.prototype.trim] removes WhiteSpace and LineTerminator
    code units; in that range these are TAB, LF, VT, FF, CR, SPACE and NBSP. *)

Definition is_js_space (c : ascii) : bool :=
  let n := nat_of_ascii c in
  Nat.eqb n 9 || Nat.eqb n 10 || Nat.eqb n 11 || Nat.eqb n 12
  || Nat.eqb n 13 || Nat.eqb n 32 || Nat.eqb n 160.

Fixpoint drop_space (l : list ascii) : list ascii :=
  match l with
  | [] => []
  | c :: l' => if is_js_space c then drop_space l' else l
  end.

(** [s.trim()] *)
Definition js_trim (s : string) : string :=
  string_of_list_ascii
    (rev (drop_space (rev (drop_space (list_ascii_of_string s))))).

(** Truthiness of a string value: only [""] is falsy. *)
Definition js_truthy (s : string) : bool := negb (String.eqb s "").

(** [a || b] on a string [a]. *)
Definition js_or_string (a b : string) : string := if js_truthy a then a else b.

(** [s += v] where [v] may be [undefined]. *)
Definition js_concat_opt (s : string) (v : option string) : string :=
  match v with
  | Some t => s ++ t
  | None => s ++ "undefined"
  end.

(** ** Data exchanged with the backend *)

(** One element of the [verses] array: [{ref, text, translation, score, url}].
    The score is a JSON number; it is only passed through, so any carrier does. *)
Record Verse := mkVerse {
  ref : string;
  vtext : string;
  translation : string;
  score : Z;
  url : option string
}.

(** The value stored by [setResult]: [{verses, explanation}].
    [None] stands for [null]/[undefined]. *)
Record Result := mkResult {
  verses : option (list Verse);
  explanation : option string
}.

(** A parsed [data: ] frame, i.e. the object returned by [JSON.parse]: only
    the properties the client reads ([type], [content], [verses], [error]). *)
Record Frame := mkFrame {
  ftype : option string;
  fcontent : option string;
  fverses : option (list Verse);
  ferror : option string
}.

Definition type_is (d : Frame) (t : string) : bool :=
  match ftype d with
  | Some t' => String.eqb t' t
  | None => false
  end.

(** A line of a decoded chunk.  [LData p] is a line that starts with
    ["data: "], with [p] the outcome of [JSON.parse(line.slice(6))]
    ([None]: the parse threw, or produced a value that is not an object);
    [LOther] is any other line (blank separators included). *)
Inductive Line :=
| LData (p : option Frame)
| LOther.

(** The body sent by [fetch]: [JSON.stringify({issue, tradition})]. *)
Record Request := mkRequest {
  req_path : string;
  req_issue : string;
  req_tradition : string
}.

(** The events of [POST /recommend/stream] and their frames, as the
    README's API reference and section 6 of the design give them:
    [{"type":"crisis","content":m}], [{"type":"verses","verses":[...]}],
    [{"type":"explanation_chunk","content":t}], [{"type":"done"}] and
    [{"error":m}], each sent as ["data: <json>\n\n"]. *)
Inductive Event :=
| EvCrisis (message : string)
| EvVerses (passages : list Verse)
| EvChunk (fragment : string)
| EvDone
| EvError (message : string).

Definition encode (e : Event) : Frame :=
  match e with
  | EvCrisis m => mkFrame (Some "crisis") (Some m) None None
  | EvVerses ps => mkFrame (Some "verses") None (Some ps) None
  | EvChunk t => mkFrame (Some "explanation_chunk") (Some t) None None
  | EvDone => mkFrame (Some "done") None None None
  | EvError m => mkFrame None None None (Some m)
  end.

(** The lines of the body once split on ["\n"]: a [data: ] line and the
    blank separator per event. *)
Definition wire (evs : list Event) : list Line :=
  flat_map (fun e => [LData (Some (encode e)); LOther]) evs.

(** The passage lists of the [verses] events of a stream. *)
Definition passages_of (evs : list Event) : list (list Verse) :=
  flat_map (fun e => match e with EvVerses ps => [ps] | _ => [] end) evs.

(** [c1 + c2 + ... + cn]. *)
Definition join (cs : list string) : string := fold_right String.append "" cs.

(** ** Global regular-expression replacement

    [s.replace(/re/g, rep)] for the patterns the pages use.  A matcher
    tries the pattern at the head of the remaining input and returns the
    replacement text and the input after the match.  As [String.prototype.
    replace] with a global pattern does, the scan tries each position from
    left to right, copies the character when nothing matches there, and
    resumes after the match when one does.  The fuel is the input length:
    every step consumes a character. *)
Module Regex.

Definition Matcher := list ascii -> option (list ascii * list ascii).

Fixpoint replace_fuel (m : Matcher) (fuel : nat) (l : list ascii) : list ascii :=
  match fuel with
  | 0 => l
  | S f =>
      match l with
      | [] => []
      | c :: l' =>
          match m l with
          | Some (rep, rest) => (rep ++ replace_fuel m f rest)%list
          | None => c :: replace_fuel m f l'
          end
      end
  end.

Definition replace_global (m : Matcher) (l : list ascii) : list ascii :=
  replace_fuel m (length l) l.

Definition js_replace (m : Matcher) (s : string) : string :=
  string_of_list_ascii (replace_global m (list_ascii_of_string s)).

Definition star : ascii := "*"%char.
Definition newline : ascii := ascii_of_nat 10.

(** The longest prefix without ['*'] and the rest: [[^*]+] is greedy and
    cannot cross a ['*'], so no backtracking can change where it ends. *)
Fixpoint nonstar_run (l : list ascii) : list ascii * list ascii :=
  match l with
  | [] => ([], [])
  | c :: l' =>
      if Ascii.eqb c star then ([], l)
      else let (r, rest) := nonstar_run l' in (c :: r, rest)
  end.

Fixpoint strip_prefix (p l : list ascii) : option (list ascii) :=
  match p, l with
  | [], _ => Some l
  | x :: p', y :: l' => if Ascii.eqb x y then strip_prefix p' l' else None
  | _ :: _, [] => None
  end.

(** [/D([^*]+)D/g] with replacement [open + $1 + close], [D] a run of
    ['*']. *)
Definition wrapped (d : list ascii) (open close : string) : Matcher :=
  fun l =>
    match strip_prefix d l with
    | None => None
    | Some l1 =>
        let (inner, rest) := nonstar_run l1 in
        match inner, strip_prefix d rest with
        | _ :: _, Some after =>
            Some ((list_ascii_of_string open ++ inner ++ list_ascii_of_string close)%list, after)
        | _, _ => None
        end
    end.

(** [/\*\*([^*]+)\*\*/g] to [<strong>$1</strong>]. *)
Definition bold : Matcher := wrapped [star; star] "<strong>" "</strong>".

(** [/\*([^*]+)\*/g] to [<em>$1</em>]. *)
Definition italic : Matcher := wrapped [star] "<em>" "</em>".

(** [/\n\n/g] to ["</p><p>"]. *)
Definition paragraph : Matcher :=
  fun l =>
    match strip_prefix [newline; newline] l with
    | Some after => Some (list_ascii_of_string "</p><p>", after)
    | None => None
    end.

(** A matcher that always consumes part of its input. *)
Definition decreasing (m : Matcher) : Prop :=
  forall l rep rest, m l = Some (rep, rest) -> length rest < length l.

End Regex.

(** ** The streaming page ([src/unnamed/part_000]) *)
Module Streaming.

(** The [useState] cells of [Home]. *)
Record UI := mkUI {
  concern : string;
  tradition : string;
  loading : bool;
  result : option Result;
  error : option string;
  streamingExplanation : string;
  isStreaming : bool;
  copyFeedback : bool * string
}.

Definition initial : UI :=
  mkUI "" "christian" false None None "" false (false, "").

Definition setConcern v s := mkUI v (tradition s) (loading s) (result s) (error s) (streamingExplanation s) (isStreaming s) (copyFeedback s).
Definition setTradition v s := mkUI (concern s) v (loading s) (result s) (error s) (streamingExplanation s) (isStreaming s) (copyFeedback s).
Definition setLoading v s := mkUI (concern s) (tradition s) v (result s) (error s) (streamingExplanation s) (isStreaming s) (copyFeedback s).
Definition setResult v s := mkUI (concern s) (tradition s) (loading s) v (error s) (streamingExplanation s) (isStreaming s) (copyFeedback s).
Definition setError v s := mkUI (concern s) (tradition s) (loading s) (result s) v (streamingExplanation s) (isStreaming s) (copyFeedback s).
Definition setStreamingExplanation v s := mkUI (concern s) (tradition s) (loading s) (result s) (error s) v (isStreaming s) (copyFeedback s).
Definition setIsStreaming v s := mkUI (concern s) (tradition s) (loading s) (result s) (error s) (streamingExplanation s) v (copyFeedback s).

(** The state of the read loop: the component state and the locals
    [tempVerses] and [tempExplanation]. *)
Record Loop := mkLoop {
  ui : UI;
  tempVerses : option (list Verse);
  tempExplanation : string
}.

(** The body of the inner [try] for one parsed frame; [inr m] is
    [throw new Error(m)].  (The [setTimeout] scroll calls only touch the DOM.) *)
Definition frame_body (L : Loop) (data : Frame) : Loop + string :=
  if type_is data "crisis" then
    inl (mkLoop
           (setLoading false
              (setResult (Some (mkResult (Some []) (fcontent data))) (ui L)))
           (tempVerses L) (tempExplanation L))
  else if type_is data "verses" then
    let tv := fverses data in
    inl (mkLoop
           (setLoading false (setResult (Some (mkResult tv (Some ""))) (ui L)))
           tv (tempExplanation L))
  else if type_is data "explanation_chunk" then
    let te := js_concat_opt (tempExplanation L) (fcontent data) in
    inl (mkLoop (setStreamingExplanation te (setIsStreaming true (ui L)))
           (tempVerses L) te)
  else if type_is data "done" then
    inl (mkLoop
           (setStreamingExplanation ""
              (setResult (Some (mkResult (tempVerses L) (Some (tempExplanation L))))
                 (setIsStreaming false (ui L))))
           (tempVerses L) (tempExplanation L))
  else match ferror data with
       | Some m => if js_truthy m then inr m else inl L
       | None => inl L
       end.

(** One line: [if (line.startsWith('data: ')) { try { ... } catch (parseError)
    { console.error(...) } }].  Whatever the inner block throws, a failed
    [JSON.parse] or the [throw new Error(data.error)], is caught here and
    only logged. *)
Definition step_line (L : Loop) (line : Line) : Loop :=
  match line with
  | LData (Some data) =>
      match frame_body L data with
      | inl L' => L'
      | inr _ => L
      end
  | LData None => L
  | LOther => L
  end.

(** One [reader.read()] value: [for (const line of lines) ...]. *)
Definition step_chunk (L : Loop) (lines : list Line) : Loop :=
  fold_left step_line lines L.

Definition run_reads (L : Loop) (reads : list (list Line)) : Loop :=
  fold_left step_chunk reads L.

(** What [fetch] and the body reader do. [SOk reads fail]: the response is
    ok, [reader.read()] yields the chunks [reads] (already split into lines)
    and then either reports [done] ([fail = None]) or rejects with an error
    whose message is [m] ([fail = Some m]). *)
Inductive SResponse :=
| SFetchFail (m : string)
| SNotOk
| SOk (reads : list (list Line)) (fail : option string).

(** The outer [catch (err)]. *)
Definition catch_outer (s : UI) (m : string) : UI :=
  setIsStreaming false
    (setLoading false
       (setError (Some (js_or_string m "Something went wrong. Please try again.")) s)).

Definition empty_msg : string := "Please share what you're going through".

(** The state updates before the [fetch] call. *)
Definition submit_reset (s : UI) : UI :=
  setIsStreaming false
    (setStreamingExplanation ""
       (setResult None (setError None (setLoading true s)))).

(** [handleSubmit]: the final state and the requests issued. *)
Definition handleSubmit (s : UI) (resp : SResponse) : UI * list Request :=
  if negb (js_truthy (js_trim (concern s))) then
    (setError (Some empty_msg) s, [])
  else
    let s1 := submit_reset s in
    let req := mkRequest "/recommend/stream" (concern s) (tradition s) in
    let s2 :=
      match resp with
      | SFetchFail m => catch_outer s1 m
      | SNotOk => catch_outer s1 "Unable to connect. Please try again."
      | SOk reads fail =>
          let L := run_reads (mkLoop s1 None "") reads in
          match fail with
          | None => ui L
          | Some m => catch_outer (ui L) m
          end
      end in
    (s2, [req]).

(** [handleReset]. *)
Definition handleReset (s : UI) : UI :=
  setIsStreaming false
    (setStreamingExplanation ""
       (setError None (setResult None (setConcern "" s)))).

(** What the results section shows: the passages ([result?.verses]) and the
    explanation text. *)
Definition shown_verses (s : UI) : list Verse :=
  match result s with
  | Some r => match verses r with Some l => l | None => [] end
  | None => []
  end.

Definition shown_explanation (s : UI) : string :=
  if isStreaming s then streamingExplanation s
  else match result s with
       | Some r => match explanation r with Some e => js_or_string e "" | None => "" end
       | None => ""
       end.

Definition setCopyFeedback v s := mkUI (concern s) (tradition s) (loading s) (result s) (error s) (streamingExplanation s) (isStreaming s) v.

(** The submit button: [disabled={loading || concern.trim().length === 0}];
    a click on it submits the form only when it is enabled. *)
Definition submit_disabled (s : UI) : bool :=
  loading s || Nat.eqb (String.length (js_trim (concern s))) 0.

Definition clickSubmit (s : UI) (resp : SResponse) : UI * list Request :=
  if submit_disabled s then (s, []) else handleSubmit s resp.

(** The textarea's [onKeyDown]: Enter without Shift submits when
    [concern.trim().length > 0 && !loading]; other keys are left to the
    textarea ([onChange]). *)
Definition onKeyDown (s : UI) (key : string) (shiftKey : bool) (resp : SResponse)
  : UI * list Request :=
  if String.eqb key "Enter" && negb shiftKey then
    if Nat.ltb 0 (String.length (js_trim (concern s))) && negb (loading s)
    then handleSubmit s resp
    else (s, [])
  else (s, []).

(** [getEmoji] inside [handleShareVerse]. *)
Definition getEmoji (tradition : string) : string :=
  if String.eqb tradition "christian" then "✝️"
  else if String.eqb tradition "jewish" then "✡️"
  else if String.eqb tradition "harry_potter" then "🪄"
  else if String.eqb tradition "social_media" then "🐦"
  else "📖".

Definition dq : string := String (ascii_of_nat 34) EmptyString.
Definition nl : string := String (ascii_of_nat 10) EmptyString.

(** The template literal [shareText]. *)
Definition shareText (s : UI) (verse : Verse) : string :=
  dq ++ concern s ++ dq ++ nl ++ nl ++ dq ++ vtext verse ++ dq ++ nl ++ nl
  ++ "- " ++ ref verse ++ " " ++ getEmoji (tradition s) ++ nl ++ nl
  ++ "Find comfort in the texts you love at Solace" ++ nl
  ++ "solace.parakhjaggi.com".

(** [handleShareVerse verse]: the state after the clipboard write settles
    ([copied]: whether [navigator.clipboard.writeText] resolved) and the
    text written. *)
Definition handleShareVerse (s : UI) (verse : Verse) (copied : bool) : UI * string :=
  (setCopyFeedback
     (true, if copied then "Quote copied to clipboard!"
            else "Failed to copy. Please try again.") s,
   shareText s verse).

(** The [setTimeout] callback scheduled by [handleShareVerse]. *)
Definition hideToast (s : UI) : UI := setCopyFeedback (false, "") s.

(** [resultsSection] is [null] when [!result && !isStreaming]. *)
Definition results_visible (s : UI) : bool :=
  negb (match result s with None => true | Some _ => false end && negb (isStreaming s)).

(** The empty state: [!result && !loading && !isStreaming]. *)
Definition empty_state_visible (s : UI) : bool :=
  match result s with None => true | Some _ => false end
  && negb (loading s) && negb (isStreaming s).

(** The "Clear" button: [result && ...]. *)
Definition clear_visible (s : UI) : bool :=
  match result s with None => false | Some _ => true end.

(** The HTML of the explanation:
    [.replace(/\*\*([^*]+)\*\*/g, ...).replace(/\n\n/g, '</p><p>')
     .replace(/^/, '<p>').replace(/$/, '</p>')]; without the [m] flag, [^]
    and [$] match only at the two ends of the input. *)
Definition explanation_html (text : string) : string :=
  "<p>" ++ Regex.js_replace Regex.paragraph (Regex.js_replace Regex.bold text) ++ "</p>".


(** The loop over the lines of the frames of [evs]. *)
Definition run_events (L : Loop) (evs : list Event) : Loop :=
  fold_left step_line (wire evs) L.

End Streaming.

(** ** The non-streaming page ([src/frontend/app/page.js]) *)
Module Page.

Record UI := mkUI {
  concern : string;
  tradition : string;
  loading : bool;
  result : option Result;
  error : option string
}.

Definition setLoading v s := mkUI (concern s) (tradition s) v (result s) (error s).
Definition setResult v s := mkUI (concern s) (tradition s) (loading s) v (error s).
Definition setError v s := mkUI (concern s) (tradition s) (loading s) (result s) v.

(** [NOk body]: the response is ok and [response.json()] yields [body];
    [NBadJson m]: it is ok but [response.json()] rejects with message [m]. *)
Inductive NResponse :=
| NFetchFail (m : string)
| NNotOk
| NOk (body : Result)
| NBadJson (m : string).

Definition catch_outer (s : UI) (m : string) : UI :=
  setError (Some (js_or_string m "Something went wrong. Please try again.")) s.

Definition empty_msg : string := "Please share what you're going through".

(** [parseMarkdown]: [if (!text) return text], then bold, then italic. *)
Definition parseMarkdown (text : option string) : option string :=
  match text with
  | Some t =>
      if js_truthy t
      then Some (Regex.js_replace Regex.italic (Regex.js_replace Regex.bold t))
      else text
  | None => None
  end.

Definition submit_disabled (s : UI) : bool :=
  loading s || Nat.eqb (String.length (js_trim (concern s))) 0.

(** [handleSubmit]; the [finally] block runs [setLoading(false)]. *)
Definition handleSubmit (s : UI) (resp : NResponse) : UI * list Request :=
  if negb (js_truthy (js_trim (concern s))) then
    (setError (Some empty_msg) s, [])
  else
    let s1 := setResult None (setError None (setLoading true s)) in
    let req := mkRequest "/recommend" (concern s) (tradition s) in
    let s2 :=
      match resp with
      | NFetchFail m => catch_outer s1 m
      | NNotOk => catch_outer s1 "Unable to connect. Please try again."
      | NOk body => setResult (Some body) s1
      | NBadJson m => catch_outer s1 m
      end in
    (setLoading false s2, [req]).

Definition clickSubmit (s : UI) (resp : NResponse) : UI * list Request :=
  if submit_disabled s then (s, []) else handleSubmit s resp.

Definition onKeyDown (s : UI) (key : string) (shiftKey : bool) (resp : NResponse)
  : UI * list Request :=
  if String.eqb key "Enter" && negb shiftKey then
    if Nat.ltb 0 (String.length (js_trim (concern s))) && negb (loading s)
    then handleSubmit s resp
    else (s, [])
  else (s, []).

End Page.

(** ** The diversity selector (modelled from the spec)

    Modelled from the spec: the Diversity Selector of [backend/main.py],
    which is not among the sources, after section 4.5: a first pass in
    score order accepts a candidate when its source_label has not been
    accepted yet and stops at [n] accepted; if fewer than [n] were accepted,
    a second pass over the same list accepts further candidates (source
    labels may now repeat) in score order until [n] are accepted.  The
    output keeps the score order of the accepted candidates. *)
Section Diversity.

Variable A : Type.
Variable source_label : A -> string.

(** First pass: one flag per candidate; [seen] holds the accepted labels. *)
Fixpoint first_pass (n : nat) (seen : list string) (l : list A) : list bool :=
  match l with
  | [] => []
  | c :: l' =>
      if Nat.ltb (length seen) n
         && negb (existsb (String.eqb (source_label c)) seen)
      then true :: first_pass n (source_label c :: seen) l'
      else false :: first_pass n seen l'
  end.

(** Second pass: [k] candidates accepted so far; fill the remaining slots
    with the not yet accepted candidates, in order. *)
Fixpoint second_pass (n k : nat) (m : list bool) : list bool :=
  match m with
  | [] => []
  | true :: m' => true :: second_pass n k m'
  | false :: m' =>
      if Nat.ltb k n then true :: second_pass n (S k) m'
      else false :: second_pass n k m'
  end.

Fixpoint count_true (m : list bool) : nat :=
  match m with
  | [] => 0
  | b :: m' => (if b then 1 else 0) + count_true m'
  end.

Fixpoint keep (m : list bool) (l : list A) : list A :=
  match m, l with
  | b :: m', c :: l' => if b then c :: keep m' l' else keep m' l'
  | _, _ => []
  end.

Definition select_diverse (n : nat) (l : list A) : list A :=
  let m1 := first_pass n [] l in
  keep (second_pass n (count_true m1) m1) l.

(** The number of distinct source labels of a pool. *)
Definition distinct_labels (l : list A) : nat :=
  length (nodup string_dec (map source_label l)).

End Diversity.

Arguments first_pass {A} source_label n seen l.
Arguments keep {A} m l.
Arguments select_diverse {A} source_label n l.
Arguments distinct_labels {A} source_label l.

(** ** The recommendation pipeline (modelled from the spec)

    Modelled from the spec: the request handler of [backend/main.py]
    ([POST /recommend/stream]), which is not among the sources, after
    sections 2 to 4 and 6 of the design: Query Preprocessor, Crisis Gate,
    Candidate Retriever, Reranker Stage, Diversity Selector, Prompt
    Composer, Synthesis Streamer and Response Encoder, run in this order.
    The external collaborators are parameters: a frozen collaborator state
    is a fixed value of [Collab]; the completion service, whose output may
    differ between runs, is passed separately. *)
Module Pipeline.

Inductive Tradition := Christian | Jewish | HarryPotter | SocialMedia.

Inductive FilterSpec :=
| UseIndex (partitions : list string)
| UseWebSearch.

(** The tradition lookup table of the Query Preprocessor. *)
Definition filter_of (t : Tradition) : FilterSpec :=
  match t with
  | Christian => UseIndex ["OT"; "NT"]
  | Jewish => UseIndex ["OT"]
  | HarryPotter => UseIndex ["HP"]
  | SocialMedia => UseWebSearch
  end.

Record Candidate := mkCandidate {
  identifier : string;
  source_label : string;
  ctext : string;
  origin_tag : string;
  raw_score : Z;
  curl : option string
}.

Inductive ErrKind :=
| InvalidInput (detail : string)
| RetrievalUnavailable
| NoPassagesFound
| SynthesisUnavailable
| ModerationBlocked.

Definition error_message (e : ErrKind) : string :=
  match e with
  | InvalidInput d => d
  | RetrievalUnavailable => "The passage service is unavailable. Please try again."
  | NoPassagesFound => "No passages found. Please try rephrasing."
  | SynthesisUnavailable => "We could not write an explanation. Please try again."
  | ModerationBlocked => "We could not write an explanation for this request."
  end.

Inductive CompOutcome := CEnd | CModeration | CTransport.

(** A completion call: the text deltas, then how the stream ended. *)
Record Completion := mkCompletion {
  deltas : list string;
  outcome : CompOutcome
}.

Record Collab := mkCollab {
  index_search : string -> list string -> nat -> option (list Candidate);
  web_search : string -> option (list Candidate);
  rerank : string -> list Candidate -> option (list (Candidate * Z))
}.

(** [complete system user attempt]. *)
Definition Completer := string -> string -> nat -> Completion.

Inductive Call :=
| CallIndex
| CallWeb
| CallRerank
| CallCompletion (attempt : nat).

Record Config := mkConfig {
  crisis_keywords : list string;
  crisis_message : string
}.

Definition K : nat := 50.
Definition N : nat := 3.
Definition MAX_CHARS : nat := 500.

(** Query Preprocessor (4.1). *)
Definition validate (q : string) : string + ErrKind :=
  let t := js_trim q in
  if Nat.eqb (String.length t) 0 then inr (InvalidInput "empty input")
  else if Nat.ltb MAX_CHARS (String.length q) then inr (InvalidInput "too long")
  else inl t.

Definition lower_ascii (c : ascii) : ascii :=
  let n := nat_of_ascii c in
  if (Nat.leb 65 n && Nat.leb n 90)%bool then ascii_of_nat (n + 32) else c.

Fixpoint lower (s : string) : string :=
  match s with
  | EmptyString => EmptyString
  | String c s' => String (lower_ascii c) (lower s')
  end.

Fixpoint contains (p s : string) : bool :=
  String.prefix p s
  || match s with
     | EmptyString => false
     | String _ s' => contains p s'
     end.

(** Crisis Gate (4.2): case-insensitive substring match. *)
Definition crisis_match (cfg : Config) (q : string) : bool :=
  existsb (fun k => contains (lower k) (lower q)) (crisis_keywords cfg).

(** Candidate Retriever (4.3). *)
Definition retrieve (col : Collab) (q : string) (t : Tradition)
  : option (list Candidate) * list Call :=
  match filter_of t with
  | UseIndex f => (index_search col q f K, [CallIndex])
  | UseWebSearch => (web_search col q, [CallWeb])
  end.

(** Reranker Stage (4.4): on failure, the retriever order with raw scores. *)
Definition rerank_stage (col : Collab) (q : string) (cs : list Candidate)
  : list (Candidate * Z) :=
  match rerank col q cs with
  | Some r => r
  | None => map (fun c => (c, raw_score c)) cs
  end.

Definition to_passage (cr : Candidate * Z) : Verse :=
  let (c, s) := cr in mkVerse (source_label c) (ctext c) (origin_tag c) s (curl c).

(** Prompt Composer (4.6). *)
Definition template (t : Tradition) : string :=
  match t with
  | Christian => "You are a compassionate, non-denominational Christian guide."
  | Jewish => "You are a compassionate guide grounded in the Torah and Tanakh."
  | HarryPotter => "You are a compassionate guide who finds wisdom in stories; avoid religious language."
  | SocialMedia => "You are a compassionate guide who finds wisdom in social media; reference usernames."
  end.

Definition compose (t : Tradition) (q : string) (ps : list Verse) : string * string :=
  (template t,
   q ++ fold_right (fun p acc => " | " ++ ref p ++ ": " ++ vtext p ++ acc) "" ps).

Definition soften (user : string) : string :=
  "Offer gentle, supportive reflections. " ++ user.

(** Synthesis Streamer (4.7): one retry; a moderation rejection retries
    with the softened user content, a transport error with the same one. *)
Definition synthesize (complete : Completer) (sys user : string)
  : list Event * list Call :=
  let c0 := complete sys user 0 in
  let ev0 := map EvChunk (deltas c0) in
  match outcome c0 with
  | CEnd => ((ev0 ++ [EvDone])%list, [CallCompletion 0])
  | o0 =>
      let user1 := match o0 with CModeration => soften user | _ => user end in
      let c1 := complete sys user1 1 in
      let ev1 := (ev0 ++ map EvChunk (deltas c1))%list in
      let last :=
        match outcome c1 with
        | CEnd => EvDone
        | CModeration => EvError (error_message ModerationBlocked)
        | CTransport => EvError (error_message SynthesisUnavailable)
        end in
      ((ev1 ++ [last])%list, [CallCompletion 0; CallCompletion 1])
  end.

(** One pipeline run: the events in emission order and the collaborator
    calls made. *)
Definition run (cfg : Config) (col : Collab) (complete : Completer)
  (q : string) (t : Tradition) : list Event * list Call :=
  match validate q with
  | inr e => ([EvError (error_message e)], [])
  | inl nq =>
      if crisis_match cfg nq then ([EvCrisis (crisis_message cfg)], [])
      else
        let (got, calls1) := retrieve col nq t in
        match got with
        | None => ([EvError (error_message RetrievalUnavailable)], calls1)
        | Some [] => ([EvError (error_message NoPassagesFound)], calls1)
        | Some cs =>
            let ranked := rerank_stage col nq cs in
            let ps := map to_passage
                        (select_diverse (fun cr => source_label (fst cr)) N ranked) in
            let (sys, user) := compose t nq ps in
            let (evs, calls3) := synthesize complete sys user in
            (EvVerses ps :: evs, (calls1 ++ [CallRerank] ++ calls3)%list)
        end
  end.

End Pipeline.

(** ** Sample inputs *)
Module Samples.
Import Pipeline.

Definition cand (id lab : string) (s : Z) : Candidate :=
  mkCandidate id lab ("text of " ++ lab) "OT" s None.

(** A pool whose candidates come from two books only. *)
Definition two_book_pool : list Candidate :=
  [cand "1" "Psalms" 9; cand "2" "Psalms" 8; cand "3" "John" 7].

Definition five_pool : list Candidate :=
  [cand "1" "Psalms" 9; cand "2" "Psalms" 8; cand "3" "John" 7;
   cand "4" "Psalms" 6; cand "5" "Romans" 5].

(** A frozen collaborator state: the index returns [five_pool], the web
    search fails and the reranker is out of quota. *)
Definition collab : Collab :=
  mkCollab (fun _ _ _ => Some five_pool) (fun _ => None) (fun _ _ => None).

Definition complete_ok : Completer :=
  fun _ _ _ => mkCompletion ["Text. "; "More text."] CEnd.

Definition complete_flaky : Completer :=
  fun _ _ a => if Nat.eqb a 0 then mkCompletion [] CTransport
               else mkCompletion ["Be "; "still."] CEnd.

Definition config : Config :=
  mkConfig ["suicide"; "self-harm"; "want to die"; "kill myself"]
    "Please reach out: 988 Suicide and Crisis Lifeline (24/7).".

(** [n] copies of ["a"]. *)
Definition pad (n : nat) : string := string_of_list_ascii (repeat "a"%char n).

End Samples.

(** * Properties *)

Lemma str_app_nil_r (s : string) : (s ++ "")%string = s.
Proof. induction s as [|c s IH]; simpl; [reflexivity | now rewrite IH]. Qed.

Lemma str_app_assoc (a b c : string) : (a ++ (b ++ c))%string = ((a ++ b) ++ c)%string.
Proof. induction a as [|x a IH]; simpl; [reflexivity | now rewrite IH]. Qed.

Lemma join_app (xs ys : list string) : join (xs ++ ys) = (join xs ++ join ys)%string.
Proof.
  induction xs as [|x xs IH]; simpl; [reflexivity|].
  now rewrite IH, str_app_assoc.
Qed.

Lemma wire_app (a b : list Event) : wire (a ++ b) = (wire a ++ wire b)%list.
Proof. unfold wire. apply flat_map_app. Qed.

Module StreamingFacts.
Import Streaming.

(** How the frames are cut into reads does not matter. *)
Lemma run_reads_concat (L : Loop) (reads : list (list Line)) :
  run_reads L reads = fold_left step_line (concat reads) L.
Proof.
  revert L; induction reads as [|r reads IH]; intros L; simpl; [reflexivity|].
  rewrite fold_left_app. apply IH.
Qed.

Lemma run_events_app (L : Loop) (a b : list Event) :
  run_events L (a ++ b) = run_events (run_events L a) b.
Proof. unfold run_events. now rewrite wire_app, fold_left_app. Qed.

Lemma run_events_cons (L : Loop) (e : Event) (evs : list Event) :
  run_events L (e :: evs) = run_events (step_line L (LData (Some (encode e)))) evs.
Proof. reflexivity. Qed.

Lemma run_events_nil (L : Loop) : run_events L [] = L.
Proof. reflexivity. Qed.

(** A run of [explanation_chunk] frames only appends to [tempExplanation]
    and touches neither the result nor the error. *)
Lemma run_chunks (L : Loop) (cs : list string) :
  let L' := run_events L (map EvChunk cs) in
  tempVerses L' = tempVerses L
  /\ tempExplanation L' = (tempExplanation L ++ join cs)%string
  /\ result (ui L') = result (ui L)
  /\ error (ui L') = error (ui L)
  /\ loading (ui L') = loading (ui L).
Proof.
  revert L; induction cs as [|c cs IH]; intros L; cbn zeta.
  - rewrite run_events_nil. simpl. now rewrite str_app_nil_r.
  - change (map EvChunk (c :: cs)) with (EvChunk c :: map EvChunk cs).
    rewrite (run_events_cons L (EvChunk c)).
    destruct (IH (step_line L (LData (Some (encode (EvChunk c))))))
      as (H1 & H2 & H3 & H4 & H5).
    rewrite H1, H2, H3, H4, H5. simpl.
    repeat split; try reflexivity. now rewrite str_app_assoc.
Qed.

Lemma handleSubmit_ok (s : UI) (reads : list (list Line)) (fail : option string) :
  js_truthy (js_trim (concern s)) = true ->
  handleSubmit s (SOk reads fail)
  = (let L := fold_left step_line (concat reads) (mkLoop (submit_reset s) None "") in
     match fail with None => ui L | Some m => catch_outer (ui L) m end,
     [mkRequest "/recommend/stream" (concern s) (tradition s)]).
Proof.
  intros H. unfold handleSubmit. rewrite H. simpl. now rewrite run_reads_concat.
Qed.

(** After a [verses] frame and [explanation_chunk] frames. *)
Lemma run_verses_chunks (s : UI) (V : list Verse) (cs : list string) :
  let L := run_events (mkLoop (submit_reset s) None "") (EvVerses V :: map EvChunk cs) in
  tempVerses L = Some V /\ tempExplanation L = join cs
  /\ result (ui L) = Some (mkResult (Some V) (Some ""))
  /\ error (ui L) = None /\ loading (ui L) = false.
Proof.
  cbn zeta. rewrite run_events_cons.
  destruct (run_chunks (step_line (mkLoop (submit_reset s) None "")
                          (LData (Some (encode (EvVerses V))))) cs)
    as (H1 & H2 & H3 & H4 & H5).
  rewrite H1, H2, H3, H4, H5. now simpl.
Qed.

End StreamingFacts.

Lemma js_or_string_empty (e : string) : js_or_string e "" = e.
Proof.
  unfold js_or_string, js_truthy.
  destruct (String.eqb_spec e ""); simpl; congruence.
Qed.

Section StreamingClaims.
Import Streaming StreamingFacts.






End StreamingClaims.

Lemma length0_empty (t : string) : String.length t = 0 -> t = "".
Proof. destruct t; [reflexivity | discriminate]. Qed.

(** C2 (as the code has it): an [{"error": m}] frame is caught by the
    per-line [catch (parseError)] and leaves the loop state unchanged, so a
    stream made of that frame alone ends with no error shown and the
    spinner still on. *)
Theorem error_frame_swallowed (s : Streaming.UI) (reads : list (list Line)) (m : string) :
  js_truthy (js_trim (Streaming.concern s)) = true ->
  (forall L, Streaming.step_line L (LData (Some (encode (EvError m)))) = L)
  /\ (concat reads = wire [EvError m] ->
      Streaming.error (fst (Streaming.handleSubmit s (Streaming.SOk reads None))) = None
      /\ Streaming.loading (fst (Streaming.handleSubmit s (Streaming.SOk reads None))) = true).
Proof.
  intros Hc. split.
  - intros L. unfold Streaming.step_line, Streaming.frame_body, type_is. simpl.
    destruct (js_truthy m); reflexivity.
  - intros Hr. rewrite (StreamingFacts.handleSubmit_ok s reads None Hc). simpl fst.
    rewrite Hr. unfold wire. simpl.
    unfold Streaming.step_line, Streaming.frame_body, type_is. simpl.
    destruct (js_truthy m); simpl; split; reflexivity.
Qed.

Lemma error_frame_swallowed_witness :
  Streaming.error (fst (Streaming.handleSubmit
    (Streaming.setConcern "I'm anxious about work" Streaming.initial)
    (Streaming.SOk [wire [EvError "No passages found"]] None))) = None.
Proof.
  apply (proj2 (error_frame_swallowed
                  (Streaming.setConcern "I'm anxious about work" Streaming.initial)
                  [wire [EvError "No passages found"]] "No passages found"
                  eq_refl) eq_refl).
Defined.

(** C4: both pages refuse an input whose trimmed length is 0: the error
    message is set and no request is made. *)
Theorem blank_input_rejected (q : string) (s : Streaming.UI) (p : Page.UI)
  (resp : Streaming.SResponse) (nresp : Page.NResponse) :
  String.length (js_trim q) = 0 ->
  Streaming.concern s = q -> Page.concern p = q ->
  Streaming.handleSubmit s resp = (Streaming.setError (Some Streaming.empty_msg) s, [])
  /\ Page.handleSubmit p nresp = (Page.setError (Some Page.empty_msg) p, []).
Proof.
  intros Hq Hs Hp. apply length0_empty in Hq.
  unfold Streaming.handleSubmit, Page.handleSubmit. rewrite Hs, Hp, Hq.
  split; reflexivity.
Qed.

Lemma blank_input_rejected_witness :
  Streaming.handleSubmit (Streaming.setConcern "  
  " Streaming.initial) Streaming.SNotOk
  = (Streaming.setError (Some Streaming.empty_msg)
       (Streaming.setConcern "  
  " Streaming.initial), [])
  /\ Page.handleSubmit (Page.mkUI "  
  " "christian" false None None) Page.NNotOk
  = (Page.setError (Some Page.empty_msg) (Page.mkUI "  
  " "christian" false None None), []).
Proof.
  apply (blank_input_rejected "  
  "); reflexivity.
Defined.



(** C10: [handleReset] puts [concern], [result], [error],
    [streamingExplanation] and [isStreaming] back to their initial values
    and keeps every other cell ([tradition], [loading], [copyFeedback]). *)
Theorem handleReset_fields (s : Streaming.UI) :
  Streaming.handleReset s
  = Streaming.mkUI (Streaming.concern Streaming.initial) (Streaming.tradition s)
      (Streaming.loading s) (Streaming.result Streaming.initial)
      (Streaming.error Streaming.initial)
      (Streaming.streamingExplanation Streaming.initial)
      (Streaming.isStreaming Streaming.initial) (Streaming.copyFeedback s).
Proof. reflexivity. Qed.

(** ** The diversity selector *)
Section DiversityFacts.

Variable A : Type.
Variable label : A -> string.

Lemma count_true_le (m : list bool) : count_true m <= length m.
Proof. induction m as [|b m IH]; simpl; [lia|]. destruct b; lia. Qed.

Lemma first_pass_length (n : nat) (seen : list string) (l : list A) :
  length (first_pass label n seen l) = length l.
Proof.
  revert seen; induction l as [|c l IH]; intros seen; simpl; [reflexivity|].
  destruct (_ && _); simpl; now rewrite IH.
Qed.

Lemma second_pass_length (n k : nat) (m : list bool) :
  length (second_pass n k m) = length m.
Proof.
  revert k; induction m as [|b m IH]; intros k; simpl; [reflexivity|].
  destruct b; simpl; [now rewrite IH|].
  destruct (Nat.ltb k n); simpl; now rewrite IH.
Qed.

Lemma keep_length (m : list bool) (l : list A) :
  length m = length l -> length (keep m l) = count_true m.
Proof.
  revert l; induction m as [|b m IH]; intros [|c l] H; simpl in *; try lia.
  destruct b; simpl; rewrite IH; lia.
Qed.

Lemma second_pass_count (n k : nat) (m : list bool) :
  count_true (second_pass n k m)
  = count_true m + Nat.min (n - k) (length m - count_true m).
Proof.
  revert k; induction m as [|b m IH]; intros k; cbn [second_pass count_true length].
  - lia.
  - pose proof (count_true_le m).
    destruct b; cbn [second_pass count_true length].
    + rewrite IH. lia.
    + destruct (Nat.ltb_spec k n); cbn [count_true]; rewrite IH; lia.
Qed.

Lemma second_pass_full (n k : nat) (m : list bool) :
  n <= k -> second_pass n k m = m.
Proof.
  intros Hk. induction m as [|b m IH]; simpl; [reflexivity|].
  destruct b; [now rewrite IH|].
  destruct (Nat.ltb_spec k n); [lia|]. now rewrite IH.
Qed.

Lemma first_pass_bound (n : nat) (seen : list string) (l : list A) :
  length seen <= n -> length seen + count_true (first_pass label n seen l) <= n.
Proof.
  revert seen; induction l as [|c l IH]; intros seen Hs; simpl; [lia|].
  destruct (Nat.ltb_spec (length seen) n); simpl.
  - destruct (existsb _ _); simpl.
    + now apply IH.
    + specialize (IH (label c :: seen)). simpl in IH. lia.
  - now apply IH.
Qed.

(** The first pass accepts labels not accepted before; it stops either with
    [n] accepted or with every label of the pool accepted. *)
Lemma first_pass_spec (n : nat) (seen : list string) (l : list A) :
  length seen <= n -> NoDup seen ->
  NoDup (map label (keep (first_pass label n seen l) l) ++ seen)
  /\ (length seen + count_true (first_pass label n seen l) = n
      \/ forall c, In c l ->
           In (label c) (map label (keep (first_pass label n seen l) l) ++ seen)).
Proof.
  revert seen; induction l as [|c l IH]; intros seen Hs Hnd; simpl.
  - split; [exact Hnd|]. right. intros _ [].
  - destruct (Nat.ltb_spec (length seen) n) as [Hlt|Hge]; simpl.
    + destruct (existsb (String.eqb (label c)) seen) eqn:Hin; simpl.
      * (* the label was accepted already *)
        destruct (IH seen Hs Hnd) as [Hnd' Hor]. split; [exact Hnd'|].
        destruct Hor as [Hn|Hall]; [now left|right].
        intros c' [<-|Hc']; [|now apply Hall].
        apply in_or_app. right.
        apply existsb_exists in Hin as (x & Hx & Heq).
        apply String.eqb_eq in Heq. now subst.
      * (* a new label: accepted *)
        assert (Hnotin : ~ In (label c) seen).
        { intros Hx. assert (existsb (String.eqb (label c)) seen = true) as Hc.
          { apply existsb_exists. exists (label c). split; [exact Hx|].
            apply String.eqb_refl. }
          congruence. }
        destruct (IH (label c :: seen)) as [Hnd' Hor];
          [simpl; lia | now constructor |].
        split.
        -- simpl. exact (Permutation_NoDup
                     (Permutation_sym (Permutation_middle _ _ _)) Hnd').
        -- destruct Hor as [Hn|Hall]; [left; simpl in Hn; lia | right].
           intros c' [<-|Hc']; [now left|].
           specialize (Hall c' Hc').
           exact (Permutation_in _ (Permutation_sym (Permutation_middle _ _ _)) Hall).
    + destruct (IH seen Hs Hnd) as [Hnd' _]. split; [exact Hnd'|].
      left. pose proof (first_pass_bound n seen l Hs). lia.
Qed.

Lemma select_diverse_length (n : nat) (l : list A) :
  length (select_diverse label n l) = Nat.min n (length l).
Proof.
  unfold select_diverse.
  rewrite keep_length by now rewrite second_pass_length, first_pass_length.
  rewrite second_pass_count, first_pass_length.
  pose proof (first_pass_bound n [] l (Nat.le_0_l n)) as Hb. simpl in Hb.
  pose proof (count_true_le (first_pass label n [] l)) as Hl.
  rewrite first_pass_length in Hl. lia.
Qed.

Lemma select_diverse_distinct (n : nat) (l : list A) :
  n <= distinct_labels label l ->
  NoDup (map label (select_diverse label n l))
  /\ length (select_diverse label n l) = n.
Proof.
  intros Hd.
  destruct (first_pass_spec n [] l (Nat.le_0_l n) (NoDup_nil _)) as [Hnd Hor].
  rewrite app_nil_r in Hnd.
  pose proof (first_pass_bound n [] l (Nat.le_0_l n)) as Hb. simpl in Hb.
  set (m1 := first_pass label n [] l) in *.
  assert (Hlen : length (keep m1 l) = count_true m1)
    by (apply keep_length; apply first_pass_length).
  assert (Hc : count_true m1 = n).
  { destruct Hor as [Hn|Hall]; [simpl in Hn; exact Hn|].
    assert (Hincl : incl (nodup string_dec (map label l)) (map label (keep m1 l))).
    { intros x Hx. apply nodup_In in Hx. apply in_map_iff in Hx as (c & <- & Hc).
      specialize (Hall c Hc). now rewrite app_nil_r in Hall. }
    pose proof (NoDup_incl_length (NoDup_nodup string_dec _) Hincl) as Hle.
    rewrite length_map in Hle. unfold distinct_labels in Hd. lia. }
  unfold select_diverse. fold m1. rewrite Hc, (second_pass_full n n m1 (le_n n)).
  split; [exact Hnd | lia].
Qed.

(** C7 (as the design has it, [N = 3]): a pool with at least three
    distinct source labels gives three passages with pairwise distinct
    labels; any pool of at least three candidates gives exactly three
    passages; and a repeated label in the output only happens when the pool
    has fewer than three distinct labels. *)
Theorem diversity_selector_three (l : list A) :
  (3 <= distinct_labels label l ->
   NoDup (map label (select_diverse label 3 l))
   /\ length (select_diverse label 3 l) = 3)
  /\ (3 <= length l -> length (select_diverse label 3 l) = 3)
  /\ (~ NoDup (map label (select_diverse label 3 l)) -> distinct_labels label l < 3).
Proof.
  split; [apply select_diverse_distinct|]. split.
  - intros H. rewrite select_diverse_length. lia.
  - intros Hn. destruct (Nat.lt_ge_cases (distinct_labels label l) 3) as [H|H];
      [exact H|].
    exfalso. apply Hn. now apply select_diverse_distinct.
Qed.

End DiversityFacts.

(** C7 as stated fails: a pool with two distinct books and three
    candidates already yields a repeated source label. *)
Lemma diversity_two_books_duplicate :
  distinct_labels Pipeline.source_label Samples.two_book_pool = 2
  /\ length (select_diverse Pipeline.source_label 3 Samples.two_book_pool) = 3
  /\ map Pipeline.source_label (select_diverse Pipeline.source_label 3 Samples.two_book_pool)
     = ["Psalms"; "Psalms"; "John"]
  /\ ~ NoDup (map Pipeline.source_label
                (select_diverse Pipeline.source_label 3 Samples.two_book_pool)).
Proof.
  split; [reflexivity|]. split; [reflexivity|]. split; [reflexivity|].
  vm_compute. intros H. inversion H as [|x l Hx Hl]. apply Hx. now left.
Qed.

Lemma diversity_selector_three_witness :
  3 <= distinct_labels Pipeline.source_label Samples.five_pool
  /\ NoDup (map Pipeline.source_label (select_diverse Pipeline.source_label 3 Samples.five_pool))
  /\ length (select_diverse Pipeline.source_label 3 Samples.five_pool) = 3.
Proof.
  assert (H : 3 <= distinct_labels Pipeline.source_label Samples.five_pool)
    by (vm_compute; lia).
  split; [exact H|].
  exact (proj1 (diversity_selector_three Pipeline.Candidate Pipeline.source_label
                  Samples.five_pool) H).
Defined.

(** ** The pipeline *)
Module PipelineFacts.
Import Pipeline.

Lemma validate_ok_truthy (q nq : string) :
  validate q = inl nq -> js_truthy (js_trim q) = true /\ nq = js_trim q.
Proof.
  unfold validate. destruct (Nat.eqb_spec (String.length (js_trim q)) 0) as [H|H];
    [discriminate|].
  destruct (Nat.ltb MAX_CHARS (String.length q)); [discriminate|].
  intros Heq. injection Heq as <-. split; [|reflexivity].
  unfold js_truthy. destruct (String.eqb_spec (js_trim q) ""); [|reflexivity].
  exfalso. apply H. now rewrite e.
Qed.

(** The Synthesis Streamer emits chunks and then [done] or one error. *)
Lemma synthesize_shape (complete : Completer) (sys user : string) :
  exists ds last,
    fst (synthesize complete sys user) = (map EvChunk ds ++ [last])%list
    /\ (last = EvDone \/ exists m, last = EvError m).
Proof.
  unfold synthesize.
  destruct (outcome (complete sys user 0)) eqn:E0; simpl.
  - exists (deltas (complete sys user 0)), EvDone. split; [reflexivity|now left].
  - set (c1 := complete sys (soften user) 1).
    exists (deltas (complete sys user 0) ++ deltas c1)%list.
    rewrite map_app.
    destruct (outcome c1);
      [exists EvDone | exists (EvError (error_message ModerationBlocked))
      | exists (EvError (error_message SynthesisUnavailable))];
      (split; [reflexivity|]); eauto.
  - set (c1 := complete sys user 1).
    exists (deltas (complete sys user 0) ++ deltas c1)%list.
    rewrite map_app.
    destruct (outcome c1);
      [exists EvDone | exists (EvError (error_message ModerationBlocked))
      | exists (EvError (error_message SynthesisUnavailable))];
      (split; [reflexivity|]); eauto.
Qed.

End PipelineFacts.

Section ClientEnd.
Import Streaming StreamingFacts.

(** Whatever ends a run after its [verses] frame, the client shows those
    verses. *)
Lemma shown_after_verses_end (s : UI) (V : list Verse) (ds : list string) (last : Event) :
  (last = EvDone \/ exists m, last = EvError m) ->
  shown_verses (ui (run_events (mkLoop (submit_reset s) None "")
                      ((EvVerses V :: map EvChunk ds) ++ [last]))) = V.
Proof.
  intros Hl. rewrite run_events_app.
  destruct (run_verses_chunks s V ds) as (H1 & H2 & H3 & H4 & H5).
  revert H1 H2 H3 H4 H5.
  generalize (run_events (mkLoop (submit_reset s) None "") (EvVerses V :: map EvChunk ds)).
  intros L H1 H2 H3 H4 H5. unfold shown_verses.
  destruct Hl as [->|[m ->]].
  - simpl. now rewrite H1.
  - unfold run_events, wire; simpl. unfold step_line, frame_body, type_is; simpl.
    destruct (js_truthy m); rewrite H3; reflexivity.
Qed.

Lemma handleSubmit_reads_concat (s : UI) (reads1 reads2 : list (list Line))
  (fail : option string) :
  concat reads1 = concat reads2 ->
  handleSubmit s (SOk reads1 fail) = handleSubmit s (SOk reads2 fail).
Proof.
  intros H. unfold handleSubmit.
  destruct (negb (js_truthy (js_trim (concern s)))); [reflexivity|].
  now rewrite !run_reads_concat, H.
Qed.

End ClientEnd.

Section PipelineClaims.
Import Pipeline.




(** C5: a non-blank 500-character concern is sent as it is and passes the
    Query Preprocessor; a 501-character query is refused with
    [invalid_input] before any collaborator is called. *)
Theorem max_chars_boundary (s : Streaming.UI) (resp : Streaming.SResponse)
  (q500 q501 : string) :
  String.length q500 = 500 -> js_trim q500 <> "" -> Streaming.concern s = q500 ->
  String.length q501 = 501 ->
  snd (Streaming.handleSubmit s resp)
    = [mkRequest "/recommend/stream" q500 (Streaming.tradition s)]
  /\ validate q500 = inl (js_trim q500)
  /\ (exists d, validate q501 = inr (InvalidInput d)
        /\ forall cfg col complete t,
             run cfg col complete q501 t = ([EvError d], [])).
Proof.
  intros H500 Hne Hs H501.
  assert (Ht : js_truthy (js_trim q500) = true).
  { unfold js_truthy. destruct (String.eqb_spec (js_trim q500) ""); [contradiction|reflexivity]. }
  split.
  - unfold Streaming.handleSubmit. rewrite Hs, Ht. simpl. reflexivity.
  - split.
    + unfold validate. rewrite H500.
      destruct (Nat.eqb_spec (String.length (js_trim q500)) 0) as [H0|_].
      * apply length0_empty in H0. contradiction.
      * reflexivity.
    + destruct (Nat.eqb (String.length (js_trim q501)) 0) eqn:E.
      * exists "empty input". split.
        -- unfold validate. now rewrite E.
        -- intros cfg col complete t. unfold run, validate. now rewrite E.
      * exists "too long". split.
        -- unfold validate. now rewrite E, H501.
        -- intros cfg col complete t. unfold run, validate. now rewrite E, H501.
Qed.

Lemma max_chars_boundary_witness :
  snd (Streaming.handleSubmit (Streaming.setConcern (Samples.pad 500) Streaming.initial)
         Streaming.SNotOk)
  = [mkRequest "/recommend/stream" (Samples.pad 500) "christian"]
  /\ validate (Samples.pad 500) = inl (js_trim (Samples.pad 500))
  /\ (exists d, validate (Samples.pad 501) = inr (InvalidInput d)
        /\ forall cfg col complete t,
             run cfg col complete (Samples.pad 501) t = ([EvError d], [])).
Proof.
  apply (max_chars_boundary (Streaming.setConcern (Samples.pad 500) Streaming.initial)
           Streaming.SNotOk (Samples.pad 500) (Samples.pad 501)).
  - vm_compute. reflexivity.
  - vm_compute. discriminate.
  - reflexivity.
  - vm_compute. reflexivity.
Defined.

End PipelineClaims.

Section Idempotence.
Import Pipeline.

Lemma passages_of_chunks_end (ps : list Verse) (ds : list string) (last : Event) :
  (last = EvDone \/ exists m, last = EvError m) ->
  passages_of ((EvVerses ps :: map EvChunk ds) ++ [last]) = [ps].
Proof.
  intros Hl. unfold passages_of. simpl. rewrite flat_map_app.
  assert (H : flat_map (fun e => match e with EvVerses ps => [ps] | _ => [] end)
                (map EvChunk ds) = []).
  { induction ds as [|d ds IH]; simpl; [reflexivity | exact IH]. }
  rewrite H. destruct Hl as [->|[m ->]]; reflexivity.
Qed.

(** A run's events either do not depend on the completion service at all,
    or are one [verses] event with a passage list fixed by the query, the
    tradition and the frozen collaborators, then chunks and one end event. *)
Lemma run_shape (cfg : Config) (col : Collab) (q : string) (t : Tradition) :
  (forall c1 c2, fst (run cfg col c1 q t) = fst (run cfg col c2 q t))
  \/ (js_truthy (js_trim q) = true
      /\ exists ps, forall complete, exists ds last,
           fst (run cfg col complete q t) = ((EvVerses ps :: map EvChunk ds) ++ [last])%list
           /\ (last = EvDone \/ exists m, last = EvError m)).
Proof.
  unfold run. destruct (validate q) as [nq|e] eqn:Hv; [|left; reflexivity].
  destruct (crisis_match cfg nq); [left; reflexivity|].
  destruct (retrieve col nq t) as [got calls1].
  destruct got as [[|c cs]|]; [left; reflexivity | | left; reflexivity].
  right. split; [apply (PipelineFacts.validate_ok_truthy q nq Hv)|].
  exists (map to_passage (select_diverse (fun cr => source_label (fst cr)) N
                            (rerank_stage col nq (c :: cs)))).
  intros complete.
  destruct (compose t nq _) as [sys user].
  destruct (PipelineFacts.synthesize_shape complete sys user) as (ds & last & Hs & Hl).
  destruct (synthesize complete sys user) as [evs calls3]. simpl in Hs |- *.
  subst evs. exists ds, last. split; [reflexivity | exact Hl].
Qed.

(** C8: with the query, the tradition and the collaborator state fixed, two
    runs emit the same passages whatever the completion service does; the
    client shows the same verses for both; and the client's final state is
    a function of the frames it receives, however they are cut into reads. *)
Theorem same_passages_across_runs (cfg : Config) (col : Collab)
  (complete1 complete2 : Completer) (q : string) (t : Tradition) :
  passages_of (fst (run cfg col complete1 q t)) = passages_of (fst (run cfg col complete2 q t))
  /\ (forall (s : Streaming.UI) (reads1 reads2 : list (list Line)),
        Streaming.concern s = q ->
        concat reads1 = wire (fst (run cfg col complete1 q t)) ->
        concat reads2 = wire (fst (run cfg col complete2 q t)) ->
        Streaming.shown_verses (fst (Streaming.handleSubmit s (Streaming.SOk reads1 None)))
        = Streaming.shown_verses (fst (Streaming.handleSubmit s (Streaming.SOk reads2 None))))
  /\ (forall (s : Streaming.UI) (reads1 reads2 : list (list Line)) (fail : option string),
        concat reads1 = concat reads2 ->
        Streaming.handleSubmit s (Streaming.SOk reads1 fail)
        = Streaming.handleSubmit s (Streaming.SOk reads2 fail)).
Proof.
  destruct (run_shape cfg col q t) as [Heq | [Ht [ps Hps]]].
  - split; [now rewrite (Heq complete1 complete2)|]. split.
    + intros s reads1 reads2 _ H1 H2.
      rewrite (handleSubmit_reads_concat s reads1 reads2 None); [reflexivity|].
      rewrite H1, H2, (Heq complete1 complete2). reflexivity.
    + intros s reads1 reads2 fail H. now apply handleSubmit_reads_concat.
  - destruct (Hps complete1) as (ds1 & l1 & E1 & L1).
    destruct (Hps complete2) as (ds2 & l2 & E2 & L2).
    split; [rewrite E1, E2, !passages_of_chunks_end by assumption; reflexivity|].
    split.
    + intros s reads1 reads2 Hs H1 H2. rewrite <- Hs in Ht.
      rewrite !(StreamingFacts.handleSubmit_ok s _ None Ht). simpl fst.
      rewrite H1, H2, E1, E2.
      fold (Streaming.run_events (Streaming.mkLoop (Streaming.submit_reset s) None "")
              ((EvVerses ps :: map EvChunk ds1) ++ [l1])).
      fold (Streaming.run_events (Streaming.mkLoop (Streaming.submit_reset s) None "")
              ((EvVerses ps :: map EvChunk ds2) ++ [l2])).
      rewrite !shown_after_verses_end by assumption. reflexivity.
    + intros s reads1 reads2 fail H. now apply handleSubmit_reads_concat.
Qed.

Lemma same_passages_across_runs_witness :
  passages_of (fst (run Samples.config Samples.collab Samples.complete_ok
                      "I'm anxious about work" Christian))
  = passages_of (fst (run Samples.config Samples.collab Samples.complete_flaky
                        "I'm anxious about work" Christian))
  /\ Streaming.shown_verses (fst (Streaming.handleSubmit
       (Streaming.setConcern "I'm anxious about work" Streaming.initial)
       (Streaming.SOk [wire (fst (run Samples.config Samples.collab Samples.complete_ok
                                    "I'm anxious about work" Christian))] None)))
     = Streaming.shown_verses (fst (Streaming.handleSubmit
       (Streaming.setConcern "I'm anxious about work" Streaming.initial)
       (Streaming.SOk [wire (fst (run Samples.config Samples.collab Samples.complete_flaky
                                    "I'm anxious about work" Christian))] None))).
Proof.
  destruct (same_passages_across_runs Samples.config Samples.collab
              Samples.complete_ok Samples.complete_flaky "I'm anxious about work" Christian)
    as (H1 & H2 & _).
  split; [exact H1|].
  apply H2; [reflexivity | exact (app_nil_r _) | exact (app_nil_r _)].
Defined.

End Idempotence.

(** * Further properties of the pages *)

Section StreamingExtra.
Import Streaming StreamingFacts.

Lemma run_chunks_streaming (L : Loop) (cs : list string) :
  cs <> [] ->
  let L' := run_events L (map EvChunk cs) in
  isStreaming (ui L') = true /\ streamingExplanation (ui L') = tempExplanation L'.
Proof.
  revert L; induction cs as [|c cs IH]; intros L Hne; [congruence|]. cbn zeta.
  change (map EvChunk (c :: cs)) with (EvChunk c :: map EvChunk cs).
  rewrite run_events_cons.
  destruct cs as [|c' cs'].
  - simpl. split; reflexivity.
  - apply IH. discriminate.
Qed.

(** A failed request (non-ok status or a rejected [fetch]) clears the
    previous result, stops the spinner and shows an error message; an empty
    error message falls back to the generic one. *)
Theorem stream_request_failure (s : UI) (m : string) :
  js_truthy (js_trim (concern s)) = true ->
  let r1 := handleSubmit s SNotOk in
  let r2 := handleSubmit s (SFetchFail m) in
  result (fst r1) = None /\ error (fst r1) = Some "Unable to connect. Please try again."
  /\ loading (fst r1) = false /\ isStreaming (fst r1) = false
  /\ result (fst r2) = None
  /\ error (fst r2) = Some (if String.eqb m "" then "Something went wrong. Please try again." else m)
  /\ loading (fst r2) = false /\ isStreaming (fst r2) = false
  /\ snd r1 = [mkRequest "/recommend/stream" (concern s) (tradition s)]
  /\ snd r2 = [mkRequest "/recommend/stream" (concern s) (tradition s)].
Proof.
  intros Hc. unfold handleSubmit. rewrite Hc. simpl.
  unfold js_or_string, js_truthy. destruct (String.eqb m ""); simpl;
    repeat split; reflexivity.
Qed.

Lemma stream_request_failure_witness :
  error (fst (handleSubmit (setConcern "I feel alone" initial) (SFetchFail "")))
  = Some "Something went wrong. Please try again.".
Proof.
  exact (proj1 (proj2 (proj2 (proj2 (proj2 (proj2 (stream_request_failure
           (setConcern "I feel alone" initial) "" eq_refl))))))).
Defined.



Lemma fold_ignored (L : Loop) (ls : list Line) :
  Forall (fun l => l = LOther \/ l = LData None) ls ->
  fold_left step_line ls L = L.
Proof.
  intros H. revert L; induction H as [|l ls [-> | ->] _ IH]; intros L; simpl;
    [reflexivity | apply IH | apply IH].
Qed.

(** An ok response whose body carries no parsable [data: ] frame ends with
    the spinner still on, no result and no error. *)
Theorem stream_no_frames_spinner_stays (s : UI) (reads : list (list Line)) :
  js_truthy (js_trim (concern s)) = true ->
  Forall (fun l => l = LOther \/ l = LData None) (concat reads) ->
  let s' := fst (handleSubmit s (SOk reads None)) in
  loading s' = true /\ result s' = None /\ error s' = None /\ isStreaming s' = false.
Proof.
  intros Hc Hf. rewrite (handleSubmit_ok s reads None Hc). cbn zeta. simpl fst.
  rewrite (fold_ignored _ _ Hf). simpl. repeat split; reflexivity.
Qed.

Lemma stream_no_frames_spinner_stays_witness :
  loading (fst (handleSubmit (setConcern "I feel alone" initial)
                  (SOk [[LOther; LData None]; [LOther]] None))) = true.
Proof.
  exact (proj1 (stream_no_frames_spinner_stays (setConcern "I feel alone" initial)
    [[LOther; LData None]; [LOther]] eq_refl
    ltac:(repeat constructor; (left; reflexivity) || (right; reflexivity)))).
Defined.

(** While chunks arrive the page shows the text received so far, with the
    verses already shown and the spinner off; the [done] frame does not
    change the text shown. *)
Theorem stream_progressive_text (s : UI) (V : list Verse) (cs : list string) :
  cs <> [] ->
  let L := run_events (mkLoop (submit_reset s) None "") (EvVerses V :: map EvChunk cs) in
  isStreaming (ui L) = true /\ shown_explanation (ui L) = join cs
  /\ shown_verses (ui L) = V /\ loading (ui L) = false
  /\ shown_explanation (ui (run_events L [EvDone])) = join cs
  /\ isStreaming (ui (run_events L [EvDone])) = false.
Proof.
  intros Hne. cbn zeta.
  destruct (run_verses_chunks s V cs) as (H1 & H2 & H3 & _ & H5).
  cbn zeta in H1, H2, H3, H5. rewrite run_events_cons in *.
  destruct (run_chunks_streaming (step_line (mkLoop (submit_reset s) None "")
             (LData (Some (encode (EvVerses V))))) cs Hne) as [Hs He].
  revert Hs He H1 H2 H3 H5.
  generalize (run_events (step_line (mkLoop (submit_reset s) None "")
             (LData (Some (encode (EvVerses V))))) (map EvChunk cs)).
  intros L Hs He H1 H2 H3 H5.
  unfold shown_explanation, shown_verses. rewrite Hs, He, H2, H3, H5.
  simpl. rewrite js_or_string_empty, H2. repeat split; reflexivity.
Qed.

Lemma stream_progressive_text_witness :
  shown_explanation (ui (run_events (mkLoop (submit_reset (setConcern "I feel alone" initial)) None "")
     (EvVerses [] :: map EvChunk ["You are "; "loved."]))) = "You are loved.".
Proof.
  exact (proj1 (proj2 (stream_progressive_text (setConcern "I feel alone" initial) []
           ["You are "; "loved."] ltac:(discriminate)))).
Defined.

End StreamingExtra.

Section StreamingExtra2.
Import Streaming StreamingFacts.






(** Clear ([handleReset]) pressed while a stream is running does not stop
    it: the read loop keeps its own [tempVerses] and [tempExplanation], so
    the next chunks and the [done] frame bring the cleared result back,
    with the text from before and after the click. *)
Theorem reset_mid_stream_restores_result (s : UI) (V : list Verse) (cs ds : list string) :
  let L := run_events (mkLoop (submit_reset s) None "") (EvVerses V :: map EvChunk cs) in
  let L' := run_events (mkLoop (handleReset (ui L)) (tempVerses L) (tempExplanation L))
                       (map EvChunk ds ++ [EvDone]) in
  result (handleReset (ui L)) = None
  /\ result (ui L') = Some (mkResult (Some V) (Some (join (cs ++ ds))))
  /\ shown_verses (ui L') = V /\ shown_explanation (ui L') = join (cs ++ ds)
  /\ concern (ui L') = "".
Proof.
  cbn zeta.
  destruct (run_verses_chunks s V cs) as (H1 & H2 & _ & _ & _). cbn zeta in H1, H2.
  revert H1 H2.
  generalize (run_events (mkLoop (submit_reset s) None "") (EvVerses V :: map EvChunk cs)).
  intros L H1 H2. rewrite run_events_app.
  destruct (run_chunks (mkLoop (handleReset (ui L)) (tempVerses L) (tempExplanation L)) ds)
    as (K1 & K2 & K3 & K4 & K5).
  cbn zeta in *. revert K1 K2 K3 K4 K5.
  assert (Hc : forall L0 : Loop, concern (ui (run_events L0 (map EvChunk ds))) = concern (ui L0)).
  { induction ds as [|d ds IH]; intros L0; [reflexivity|].
    change (map EvChunk (d :: ds)) with (EvChunk d :: map EvChunk ds).
    rewrite run_events_cons, IH. reflexivity. }
  pose proof (Hc (mkLoop (handleReset (ui L)) (tempVerses L) (tempExplanation L))) as Hc'.
  revert Hc'.
  generalize (run_events (mkLoop (handleReset (ui L)) (tempVerses L) (tempExplanation L)) (map EvChunk ds)).
  intros L2 Hc' K1 K2 K3 K4 K5. simpl in *.
  unfold shown_verses, shown_explanation. simpl.
  rewrite K1, K2, H1, H2, Hc', join_app, js_or_string_empty. repeat split; reflexivity.
Qed.

End StreamingExtra2.

Lemma length_zero_eqb (t : string) : Nat.eqb (String.length t) 0 = String.eqb t "".
Proof. destruct t; reflexivity. Qed.

(** The two ways to submit, on both pages: Enter without Shift does what a
    click on the submit button does, Shift+Enter never submits, nothing is
    submitted while a request is loading, and a submission that passes the
    guard always issues exactly one request, so the blank-input error of
    [handleSubmit] cannot be reached from the form. *)
Theorem submit_guards (s : Streaming.UI) (p : Page.UI) (sr : Streaming.SResponse)
  (pr : Page.NResponse) (key : string) (shift : bool) :
  Streaming.onKeyDown s "Enter" false sr = Streaming.clickSubmit s sr
  /\ Streaming.onKeyDown s key true sr = (s, [])
  /\ Streaming.clickSubmit (Streaming.setLoading true s) sr = (Streaming.setLoading true s, [])
  /\ Streaming.onKeyDown (Streaming.setLoading true s) key shift sr = (Streaming.setLoading true s, [])
  /\ snd (Streaming.clickSubmit s sr)
     = (if Streaming.submit_disabled s then []
        else [mkRequest "/recommend/stream" (Streaming.concern s) (Streaming.tradition s)])
  /\ Page.onKeyDown p "Enter" false pr = Page.clickSubmit p pr
  /\ Page.onKeyDown p key true pr = (p, [])
  /\ Page.clickSubmit (Page.setLoading true p) pr = (Page.setLoading true p, [])
  /\ Page.onKeyDown (Page.setLoading true p) key shift pr = (Page.setLoading true p, [])
  /\ snd (Page.clickSubmit p pr)
     = (if Page.submit_disabled p then []
        else [mkRequest "/recommend" (Page.concern p) (Page.tradition p)]).
Proof.
  assert (Ht : forall t, Nat.eqb (String.length t) 0 = false -> js_truthy t = true).
  { intros t. rewrite length_zero_eqb. unfold js_truthy. now intros ->. }
  repeat split.
  - unfold Streaming.onKeyDown, Streaming.clickSubmit, Streaming.submit_disabled. simpl.
    destruct (String.length (js_trim (Streaming.concern s))), (Streaming.loading s); reflexivity.
  - unfold Streaming.onKeyDown. now rewrite Bool.andb_false_r.
  - unfold Streaming.onKeyDown. simpl. rewrite Bool.andb_false_r.
    now destruct (_ && _).
  - unfold Streaming.clickSubmit. destruct (Streaming.submit_disabled s) eqn:E; [reflexivity|].
    unfold Streaming.submit_disabled in E. apply Bool.orb_false_iff in E as [_ E].
    unfold Streaming.handleSubmit. rewrite (Ht _ E). simpl. reflexivity.
  - unfold Page.onKeyDown, Page.clickSubmit, Page.submit_disabled. simpl.
    destruct (String.length (js_trim (Page.concern p))), (Page.loading p); reflexivity.
  - unfold Page.onKeyDown. now rewrite Bool.andb_false_r.
  - unfold Page.onKeyDown. simpl. rewrite Bool.andb_false_r.
    now destruct (_ && _).
  - unfold Page.clickSubmit. destruct (Page.submit_disabled p) eqn:E; [reflexivity|].
    unfold Page.submit_disabled in E. apply Bool.orb_false_iff in E as [_ E].
    unfold Page.handleSubmit. rewrite (Ht _ E). simpl. reflexivity.
Qed.

Section PageViews.
Import Streaming.

(** After Clear the results section and the Clear button are hidden, and
    the empty state comes back unless a request is still loading; at no
    time are the empty state and the results section both on screen. *)
Theorem reset_views (s t : UI) :
  results_visible (handleReset s) = false
  /\ clear_visible (handleReset s) = false
  /\ empty_state_visible (handleReset s) = negb (loading s)
  /\ empty_state_visible t && results_visible t = false.
Proof.
  unfold results_visible, clear_visible, empty_state_visible. simpl.
  repeat split; [now rewrite Bool.andb_true_r|].
  destruct (result t), (loading t), (isStreaming t); reflexivity.
Qed.

Lemma str_prefix_app (a b : string) : String.prefix a (a ++ b) = true.
Proof.
  induction a as [|c a IH]; simpl; [now destruct b|].
  rewrite IH. destruct (Ascii.ascii_dec c c); congruence.
Qed.

(** Sharing a passage only shows the toast, whose message tells whether
    the clipboard write succeeded; the timer then hides it and gives back
    the state from before the click.  The copied text starts with the
    user's concern in double quotes. *)
Theorem share_only_toast (s : UI) (v : Verse) (copied : bool) :
  let s' := fst (handleShareVerse s v copied) in
  concern s' = concern s /\ tradition s' = tradition s /\ loading s' = loading s
  /\ result s' = result s /\ error s' = error s
  /\ shown_verses s' = shown_verses s /\ shown_explanation s' = shown_explanation s
  /\ copyFeedback s' = (true, if copied then "Quote copied to clipboard!"
                               else "Failed to copy. Please try again.")
  /\ hideToast s' = setCopyFeedback (false, "") s
  /\ String.prefix (dq ++ concern s ++ dq) (snd (handleShareVerse s v copied)) = true.
Proof.
  cbn zeta. repeat split.
  unfold handleShareVerse, shareText. cbn [snd].
  rewrite (str_app_assoc (concern s) dq), (str_app_assoc dq (concern s ++ dq)).
  apply str_prefix_app.
Qed.

End PageViews.

Section PageOutcomes.
Import Page.

(** [handleSubmit] of [page.js] on a non-blank concern: one request to
    [/recommend]; the [finally] block always stops the spinner; a parsed
    body becomes the result with no error, and every failure clears the
    result and sets an error (the generic one when the thrown message is
    empty). *)
Theorem page_submit_outcomes (s : UI) (resp : NResponse) :
  js_truthy (js_trim (concern s)) = true ->
  let s' := fst (handleSubmit s resp) in
  snd (handleSubmit s resp) = [mkRequest "/recommend" (concern s) (tradition s)]
  /\ loading s' = false
  /\ match resp with
     | NOk body => result s' = Some body /\ error s' = None
     | NNotOk => result s' = None /\ error s' = Some "Unable to connect. Please try again."
     | NFetchFail m | NBadJson m =>
         result s' = None
         /\ error s' = Some (if String.eqb m "" then "Something went wrong. Please try again." else m)
     end.
Proof.
  intros Hc. cbn zeta. unfold handleSubmit. rewrite Hc. simpl.
  destruct resp as [m| |body|m]; simpl; repeat split;
    try (unfold js_or_string, js_truthy; destruct (String.eqb m ""); reflexivity).
Qed.

Lemma page_submit_outcomes_witness :
  error (fst (handleSubmit (mkUI "I feel alone" "christian" false None None) (NBadJson "")))
  = Some "Something went wrong. Please try again.".
Proof.
  exact (proj2 (proj2 (proj2 (page_submit_outcomes
     (mkUI "I feel alone" "christian" false None None) (NBadJson "") eq_refl)))).
Defined.

End PageOutcomes.

Module RegexFacts.
Import Regex.

Lemma replace_fuel_enough (m : Matcher) (Hm : decreasing m) (f1 f2 : nat) (l : list ascii) :
  length l <= f1 -> length l <= f2 -> replace_fuel m f1 l = replace_fuel m f2 l.
Proof.
  revert f2 l; induction f1 as [|f1 IH]; intros f2 l H1 H2.
  - destruct l; [|simpl in H1; lia]. destruct f2; reflexivity.
  - destruct f2 as [|f2]; [destruct l; [reflexivity | simpl in H2; lia]|].
    destruct l as [|c l]; [reflexivity|]. simpl.
    destruct (m (c :: l)) as [[rep rest]|] eqn:E.
    + pose proof (Hm _ _ _ E) as Hlt. simpl in Hlt, H1, H2.
      f_equal. apply IH; lia.
    + simpl in H1, H2. f_equal. apply IH; lia.
Qed.

Lemma replace_global_nil (m : Matcher) : replace_global m [] = [].
Proof. reflexivity. Qed.

Lemma replace_global_none (m : Matcher) (c : ascii) (l : list ascii) :
  m (c :: l) = None -> replace_global m (c :: l) = c :: replace_global m l.
Proof. intros E. unfold replace_global. simpl. now rewrite E. Qed.

Lemma replace_global_some (m : Matcher) (Hm : decreasing m) (c : ascii) (l rep rest : list ascii) :
  m (c :: l) = Some (rep, rest) -> replace_global m (c :: l) = (rep ++ replace_global m rest)%list.
Proof.
  intros E. unfold replace_global. simpl. rewrite E. f_equal.
  pose proof (Hm _ _ _ E) as Hlt. simpl in Hlt.
  apply replace_fuel_enough; [exact Hm | lia | lia].
Qed.

Lemma strip_prefix_length (p l l' : list ascii) :
  strip_prefix p l = Some l' -> length l = length p + length l'.
Proof.
  revert l; induction p as [|x p IH]; intros l E; simpl in E.
  - now inversion E.
  - destruct l as [|y l]; [discriminate|].
    destruct (Ascii.eqb x y); [|discriminate]. simpl. now rewrite (IH _ E).
Qed.

Lemma nonstar_run_length (l r rest : list ascii) :
  nonstar_run l = (r, rest) -> length l = length r + length rest.
Proof.
  revert r rest; induction l as [|c l IH]; intros r rest E; simpl in E.
  - now inversion E.
  - destruct (Ascii.eqb c star); [now inversion E|].
    destruct (nonstar_run l) as [r' rest'] eqn:E'. inversion E; subst.
    simpl. now rewrite (IH _ _ eq_refl).
Qed.

Lemma wrapped_decreasing (d : list ascii) (o c : string) :
  d <> [] -> decreasing (wrapped d o c).
Proof.
  intros Hd l rep rest E. unfold wrapped in E.
  destruct (strip_prefix d l) as [l1|] eqn:E1; [|discriminate].
  destruct (nonstar_run l1) as [inner rest1] eqn:E2.
  destruct inner as [|i inner]; [discriminate|].
  destruct (strip_prefix d rest1) as [after|] eqn:E3; [|discriminate].
  inversion E; subst.
  apply strip_prefix_length in E1, E3. apply nonstar_run_length in E2.
  destruct d; [congruence|]. simpl in *. lia.
Qed.

Lemma bold_decreasing : decreasing bold.
Proof. apply wrapped_decreasing. discriminate. Qed.

Lemma italic_decreasing : decreasing italic.
Proof. apply wrapped_decreasing. discriminate. Qed.

Lemma paragraph_decreasing : decreasing paragraph.
Proof.
  intros l rep rest E. unfold paragraph in E.
  destruct (strip_prefix [newline; newline] l) as [after|] eqn:E1; [|discriminate].
  inversion E; subst. apply strip_prefix_length in E1. simpl in E1. lia.
Qed.

(** A matcher that can only start at the character [x] leaves a text
    without [x] as it is. *)
Lemma replace_global_id (m : Matcher) (x : ascii)
  (Hx : forall c l, c <> x -> m (c :: l) = None) (l : list ascii) :
  ~ In x l -> replace_global m l = l.
Proof.
  induction l as [|c l IH]; intros Hn; [reflexivity|].
  rewrite replace_global_none.
  - f_equal. apply IH. intros H. apply Hn. now right.
  - apply Hx. intros ->. apply Hn. now left.
Qed.

Lemma wrapped_head (d : list ascii) (o cl : string) (c : ascii) (l : list ascii) :
  c <> star -> wrapped (star :: d) o cl (c :: l) = None.
Proof.
  intros Hc. unfold wrapped. cbn [strip_prefix].
  destruct (Ascii.eqb_spec star c) as [E|]; [exfalso; apply Hc; now symmetry | reflexivity].
Qed.

Lemma bold_head (c : ascii) (l : list ascii) : c <> star -> bold (c :: l) = None.
Proof. apply wrapped_head. Qed.

Lemma italic_head (c : ascii) (l : list ascii) : c <> star -> italic (c :: l) = None.
Proof. apply wrapped_head. Qed.

Lemma paragraph_head (c : ascii) (l : list ascii) : c <> newline -> paragraph (c :: l) = None.
Proof.
  intros Hc. unfold paragraph. cbn [strip_prefix].
  destruct (Ascii.eqb_spec newline c) as [E|]; [exfalso; apply Hc; now symmetry | reflexivity].
Qed.

Lemma no_char_iff (x : ascii) (l : list ascii) :
  existsb (Ascii.eqb x) l = false <-> ~ In x l.
Proof.
  induction l as [|c l IH]; simpl; [tauto|].
  rewrite Bool.orb_false_iff, IH.
  destruct (Ascii.eqb_spec x c) as [->|Hne]; split.
  - intros [H _]; discriminate.
  - intros H; exfalso; apply H; now left.
  - intros [_ H] [H'|H']; [congruence | exact (H H')].
  - intros H; split; [reflexivity | intros H'; apply H; now right].
Qed.

Lemma las_app (a b : string) :
  list_ascii_of_string (a ++ b) = (list_ascii_of_string a ++ list_ascii_of_string b)%list.
Proof. induction a as [|c a IH]; simpl; [reflexivity | now rewrite IH]. Qed.

Lemma nonstar_run_app (ls r : list ascii) :
  ~ In star ls -> nonstar_run (ls ++ star :: r) = (ls, star :: r).
Proof.
  induction ls as [|c ls IH]; intros Hn; cbn [nonstar_run app].
  - now rewrite Ascii.eqb_refl.
  - destruct (Ascii.eqb_spec c star) as [E|Hc]; [exfalso; apply Hn; now left|].
    rewrite IH; [reflexivity|]. intros H; apply Hn; now right.
Qed.

Lemma bold_tail (ls : list ascii) :
  ~ In star ls -> replace_global bold (ls ++ [star]) = (ls ++ [star])%list.
Proof.
  induction ls as [|c ls IH]; intros Hn; [reflexivity|].
  simpl. rewrite replace_global_none.
  - f_equal. apply IH. intros H; apply Hn; now right.
  - apply bold_head. intros ->. apply Hn. now left.
Qed.

Lemma para_step (p r : list ascii) :
  ~ In newline p ->
  replace_global paragraph (p ++ newline :: newline :: r)
  = (p ++ list_ascii_of_string "</p><p>" ++ replace_global paragraph r)%list.
Proof.
  induction p as [|c p IH]; intros Hn; cbn [app].
  - apply (replace_global_some _ paragraph_decreasing). unfold paragraph. cbn [strip_prefix].
    now rewrite Ascii.eqb_refl.
  - rewrite replace_global_none.
    + f_equal. apply IH. intros H; apply Hn; now right.
    + apply paragraph_head. intros ->. apply Hn. now left.
Qed.

End RegexFacts.

Section Markdown.
Import Regex RegexFacts.

Lemma strip_prefix_self (p x : list ascii) : strip_prefix p (p ++ x) = Some x.
Proof.
  induction p as [|c p IH]; [reflexivity|]. cbn [strip_prefix app].
  now rewrite Ascii.eqb_refl.
Qed.

Lemma wrapped_whole (d' ls : list ascii) (o cl : string) :
  ~ In star ls -> ls <> [] ->
  replace_global (wrapped (star :: d') o cl) ((star :: d') ++ ls ++ (star :: d'))%list
  = (list_ascii_of_string o ++ ls ++ list_ascii_of_string cl)%list.
Proof.
  intros Hn Hne. cbn [app].
  rewrite (replace_global_some _ (wrapped_decreasing (star :: d') o cl ltac:(discriminate))
             star (d' ++ ls ++ star :: d')
             (list_ascii_of_string o ++ ls ++ list_ascii_of_string cl)%list []).
  - now rewrite replace_global_nil, app_nil_r.
  - unfold wrapped. change (star :: d' ++ ls ++ star :: d')%list with ((star :: d') ++ ls ++ star :: d')%list.
    rewrite strip_prefix_self, (nonstar_run_app _ _ Hn).
    destruct ls as [|c ls]; [congruence|].
    pose proof (strip_prefix_self (star :: d') []) as Hs. rewrite app_nil_r in Hs. now rewrite Hs.
Qed.

Lemma js_replace_id (m : Matcher) (x : ascii)
  (Hx : forall c l, c <> x -> m (c :: l) = None) (t : string) :
  existsb (Ascii.eqb x) (list_ascii_of_string t) = false -> js_replace m t = t.
Proof.
  intros H. apply no_char_iff in H. unfold js_replace.
  rewrite (replace_global_id m x Hx _ H). apply string_of_list_ascii_of_string.
Qed.

Lemma no_char_app (x : ascii) (a b : string) :
  existsb (Ascii.eqb x) (list_ascii_of_string (a ++ b))
  = existsb (Ascii.eqb x) (list_ascii_of_string a) || existsb (Ascii.eqb x) (list_ascii_of_string b).
Proof. now rewrite las_app, existsb_app. Qed.

Lemma no_char_concat (x : ascii) (sep : string) (ps : list string) :
  existsb (Ascii.eqb x) (list_ascii_of_string sep) = false ->
  Forall (fun p => existsb (Ascii.eqb x) (list_ascii_of_string p) = false) ps ->
  existsb (Ascii.eqb x) (list_ascii_of_string (String.concat sep ps)) = false.
Proof.
  intros Hs Hps. induction Hps as [|p ps Hp Hps IH]; [reflexivity|].
  destruct ps as [|q qs]; [exact Hp|].
  change (String.concat sep (p :: q :: qs)) with (p ++ sep ++ String.concat sep (q :: qs))%string.
  now rewrite !no_char_app, Hp, Hs, IH.
Qed.

Lemma las_nl_nl (x : string) :
  list_ascii_of_string (Streaming.nl ++ Streaming.nl ++ x) = newline :: newline :: list_ascii_of_string x.
Proof. reflexivity. Qed.

Lemma js_replace_bold_whole (s : string) :
  s <> "" -> existsb (Ascii.eqb star) (list_ascii_of_string s) = false ->
  js_replace bold ("**" ++ s ++ "**") = ("<strong>" ++ s ++ "</strong>")%string.
Proof.
  intros Hne Hs. apply no_char_iff in Hs as Hn.
  assert (Hl : list_ascii_of_string s <> []) by (destruct s; [congruence | discriminate]).
  unfold js_replace. rewrite !las_app. unfold bold.
  change (list_ascii_of_string "**") with [star; star].
  rewrite (wrapped_whole [star] _ _ _ Hn Hl).
  rewrite <- !las_app. apply string_of_list_ascii_of_string.
Qed.

Lemma js_replace_bold_single (s : string) :
  s <> "" -> existsb (Ascii.eqb star) (list_ascii_of_string s) = false ->
  js_replace bold ("*" ++ s ++ "*") = ("*" ++ s ++ "*")%string.
Proof.
  intros Hne Hs. apply no_char_iff in Hs as Hn.
  unfold js_replace. rewrite !las_app.
  change (list_ascii_of_string "*") with [star].
  destruct (list_ascii_of_string s) as [|c l] eqn:E; [destruct s; [congruence | discriminate]|].
  cbn [app]. rewrite replace_global_none.
  - change (c :: l ++ [star])%list with ((c :: l) ++ [star])%list.
    rewrite (bold_tail _ Hn).
    rewrite <- E. change [star] with (list_ascii_of_string "*").
    rewrite <- !las_app. apply (string_of_list_ascii_of_string ("*" ++ s ++ "*")).
  - unfold bold, wrapped. cbn [strip_prefix]. rewrite Ascii.eqb_refl.
    assert (Hc : c <> star) by (intros ->; apply Hn; now left).
    apply Ascii.eqb_neq in Hc. rewrite Ascii.eqb_sym, Hc. reflexivity.
Qed.

(** [parseMarkdown] of [page.js] wraps a bold or an italic span, and the
    text inside is kept as it is. *)
Theorem page_markdown_spans (s : string) :
  s <> "" -> existsb (Ascii.eqb star) (list_ascii_of_string s) = false ->
  Page.parseMarkdown (Some ("**" ++ s ++ "**")) = Some ("<strong>" ++ s ++ "</strong>")
  /\ Page.parseMarkdown (Some ("*" ++ s ++ "*")) = Some ("<em>" ++ s ++ "</em>").
Proof.
  intros Hne Hs. pose proof Hs as Hn. apply no_char_iff in Hn.
  assert (Hl : list_ascii_of_string s <> []) by (destruct s; [congruence | discriminate]).
  unfold Page.parseMarkdown. split.
  - change (js_truthy ("**" ++ s ++ "**")) with true. cbv iota.
    rewrite (js_replace_bold_whole s Hne Hs). f_equal. apply (js_replace_id italic star italic_head).
    now rewrite !no_char_app, Hs.
  - change (js_truthy ("*" ++ s ++ "*")) with true. cbv iota.
    rewrite (js_replace_bold_single s Hne Hs).
    f_equal. unfold js_replace. rewrite !las_app.
    change (list_ascii_of_string "*") with [star]. unfold italic.
    rewrite (wrapped_whole [] _ _ _ Hn Hl).
    rewrite <- !las_app. apply string_of_list_ascii_of_string.
Qed.

Lemma page_markdown_spans_witness :
  Page.parseMarkdown (Some "*be still*") = Some "<em>be still</em>".
Proof.
  exact (proj2 (page_markdown_spans "be still" ltac:(discriminate) eq_refl)).
Defined.

(** [parseMarkdown] of [page.js] escapes nothing: a text without ['*'],
    markup included, goes to [dangerouslySetInnerHTML] as it came from the
    backend. *)
Theorem page_markdown_no_escape (t : string) :
  existsb (Ascii.eqb star) (list_ascii_of_string t) = false ->
  Page.parseMarkdown (Some t) = Some t.
Proof.
  intros Hs. unfold Page.parseMarkdown. destruct (js_truthy t); [|reflexivity].
  rewrite (js_replace_id bold star bold_head _ Hs).
  now rewrite (js_replace_id italic star italic_head _ Hs).
Qed.

Lemma page_markdown_no_escape_witness :
  Page.parseMarkdown (Some "<img src=x onerror=alert(1)>") = Some "<img src=x onerror=alert(1)>".
Proof. exact (page_markdown_no_escape "<img src=x onerror=alert(1)>" eq_refl). Defined.

Lemma paragraph_concat (ps : list string) :
  Forall (fun p => existsb (Ascii.eqb newline) (list_ascii_of_string p) = false) ps ->
  replace_global paragraph (list_ascii_of_string (String.concat (Streaming.nl ++ Streaming.nl) ps))
  = list_ascii_of_string (String.concat "</p><p>" ps).
Proof.
  intros Hps. induction Hps as [|p ps Hp Hps IH]; [reflexivity|].
  apply no_char_iff in Hp.
  destruct ps as [|q qs].
  - exact (replace_global_id _ _ paragraph_head _ Hp).
  - change (String.concat (Streaming.nl ++ Streaming.nl) (p :: q :: qs))
      with (p ++ (Streaming.nl ++ Streaming.nl) ++ String.concat (Streaming.nl ++ Streaming.nl) (q :: qs))%string.
    change (String.concat "</p><p>" (p :: q :: qs))
      with (p ++ "</p><p>" ++ String.concat "</p><p>" (q :: qs))%string.
    rewrite <- str_app_assoc, las_app, las_nl_nl, (para_step _ _ Hp), IH.
    now rewrite !las_app.
Qed.

(** The explanation of the streaming page: paragraphs separated by a blank
    line become [<p>] elements, and nothing in them is escaped. *)
Theorem explanation_html_paragraphs (ps : list string) :
  Forall (fun p => existsb (Ascii.eqb star) (list_ascii_of_string p) = false
                   /\ existsb (Ascii.eqb newline) (list_ascii_of_string p) = false) ps ->
  Streaming.explanation_html (String.concat (Streaming.nl ++ Streaming.nl) ps)
  = ("<p>" ++ String.concat "</p><p>" ps ++ "</p>")%string.
Proof.
  intros H. unfold Streaming.explanation_html.
  rewrite (js_replace_id bold star bold_head).
  - unfold js_replace. rewrite paragraph_concat.
    + now rewrite string_of_list_ascii_of_string.
    + eapply Forall_impl; [|exact H]. now intros p [_ Hp].
  - apply no_char_concat; [reflexivity|].
    eapply Forall_impl; [|exact H]. now intros p [Hp _].
Qed.

Lemma explanation_html_paragraphs_witness :
  Streaming.explanation_html (String.concat (Streaming.nl ++ Streaming.nl) ["You are seen."; "<b>Rest.</b>"])
  = "<p>You are seen.</p><p><b>Rest.</b></p>".
Proof.
  exact (explanation_html_paragraphs ["You are seen."; "<b>Rest.</b>"]
           ltac:(repeat constructor)).
Defined.

(** The streaming page renders bold but, unlike [page.js], no italics: a
    span between single stars keeps its stars. *)
Theorem explanation_html_spans (s : string) :
  s <> "" -> existsb (Ascii.eqb star) (list_ascii_of_string s) = false ->
  existsb (Ascii.eqb newline) (list_ascii_of_string s) = false ->
  Streaming.explanation_html ("**" ++ s ++ "**") = ("<p><strong>" ++ s ++ "</strong></p>")%string
  /\ Streaming.explanation_html ("*" ++ s ++ "*") = ("<p>*" ++ s ++ "*</p>")%string.
Proof.
  intros Hne Hs Hnl. unfold Streaming.explanation_html. split.
  - rewrite (js_replace_bold_whole s Hne Hs).
    rewrite (js_replace_id paragraph newline paragraph_head).
    + rewrite <- !str_app_assoc. reflexivity.
    + now rewrite !no_char_app, Hnl.
  - rewrite (js_replace_bold_single s Hne Hs).
    rewrite (js_replace_id paragraph newline paragraph_head).
    + rewrite <- !str_app_assoc. reflexivity.
    + now rewrite !no_char_app, Hnl.
Qed.

Lemma explanation_html_spans_witness :
  Streaming.explanation_html "*be still*" = "<p>*be still*</p>".
Proof.
  exact (proj2 (explanation_html_spans "be still" ltac:(discriminate) eq_refl eq_refl)).
Defined.

End Markdown.

Section SplitFrames.
Import Streaming.



End SplitFrames.
